(** * QPU / MyRobotLab middleware: a shallow embedding and its properties

  The development follows the two Python modules of the repository:

  - [Hardware]   embeds [middleware_hardware.py]: the QPU status machine
    ([check_status], [calibrate], [execute_circuit]), the circuit builder
    ([create_recognition_circuit]), the orchestration
    ([process_vision_data]) and the decoder ([_post_process_results]);
  - [Simulation] embeds [middleware_simulation.py]: the fixed optimisation
    circuit and the arg-max decoder of [optimize_movement];
  - [Clients]    embeds [test_pattern_recognition] and describes callers
    that use one interface object call after call.

  Modelling conventions.
  - Python floats are IEEE binary64, i.e. Rocq's primitive floats.
  - A method of an object is a computation in a state-and-exception monad
    over the object's fields: it returns a value or raises, and in both
    cases hands back the (possibly mutated) object.
  - [print] writes to the console only; the console is not part of the
    modelled state, so [print] is the computation that does nothing.
  - [cirq] is an external library.  A circuit is the ordered sequence of
    operations handed to [Circuit.append]; the simulator and the text
    rendering of a circuit are parameters; [cirq.measure] refuses an
    empty set of qubits. *)

From Stdlib Require Import ZArith PrimFloat Uint63 Lia.
From stdpp Require Import base option list strings gmap.

#[local] Set Warnings "-inexact-float".
Open Scope Z_scope.

(** ** Python values shared by both modules *)

Module Py.

(** The exceptions (all subclasses of [Exception]) that occur. *)
Inductive exn : Type :=
| RuntimeError (msg : string)
| KeyError (key : string)
| IndexError (msg : string)
| ValueError (msg : string)
| Exception (msg : string).

(** What evaluating an expression or running a statement yields. *)
Inductive outcome (A : Type) : Type :=
| Return (a : A)
| Raise (e : exn).
Arguments Return {A} a.
Arguments Raise {A} e.

Definition is_return {A} (r : outcome A) : bool :=
  match r with Return _ => true | Raise _ => false end.

(** [int -> float64] conversion; exact below 2^53. *)
Definition float_of_Z (z : Z) : float := PrimFloat.of_uint63 (Uint63.of_Z z).

(** [np.pi], the binary64 value nearest to pi. *)
Definition np_pi : float := 0x1.921fb54442d18p+1%float.

(** [sum] of a bit array, as an integer. *)
Definition bit_sum (bits : list bool) : Z :=
  foldr (fun b acc => Z.b2z b + acc) 0 bits.

(** A two-dimensional [numpy] array of measured bits: one row per shot,
    one column per measured qubit. *)
Abbreviation ndarray := (list (list bool)).

(** [np.mean(a)] of an integer array: every element is added up in
    float64 (exact for bits) and the total is divided by [a.size].  On an
    empty array this is [0/0 = nan] (a warning, not an exception). *)
Definition np_mean (a : ndarray) : float :=
  let flat := concat a in
  PrimFloat.div (float_of_Z (bit_sum flat)) (float_of_Z (Z.of_nat (length flat))).

(** [max(iterable, key=f)]: the first element whose key is not exceeded
    by any later one; [ValueError] on an empty iterable. *)
Fixpoint max_from {A} (f : A -> Z) (best : A) (rest : list A) : A :=
  match rest with
  | [] => best
  | x :: rest' => max_from f (if f best <? f x then x else best) rest'
  end.

Definition max_key {A} (f : A -> Z) (xs : list A) : outcome A :=
  match xs with
  | [] => Raise (ValueError "max() arg is an empty sequence")
  | x :: rest => Return (max_from f x rest)
  end.

End Py.
Import Py.

(** ** The part of [cirq] the middleware uses *)

Module Cirq.

Record GridQubit : Type := mkGridQubit { row : Z; col : Z }.

Global Instance GridQubit_eq_dec : EqDecision GridQubit.
Proof. solve_decision. Defined.

(** Gate operations.  [Y_pow e q] is [cirq.Y(q) ** e], [X_pow e q] is
    [cirq.X(q) ** e]; [measure qs key] is [cirq.measure( *qs, key=key)].
    Whatever validation [cirq] applies when an operation is constructed is
    outside the model. *)
Inductive Operation : Type :=
| H (q : GridQubit)
| X_pow (exponent : float) (q : GridQubit)
| Y_pow (exponent : float) (q : GridQubit)
| CNOT (control target : GridQubit)
| measure (qubits : list GridQubit) (key : string).

(** [cirq.measure( *qubits, key=key)] as the library constructs it: a
    measurement of no qubit is refused. *)
Definition cirq_measure (qubits : list GridQubit) (key : string)
  : outcome Operation :=
  match qubits with
  | [] => Raise (ValueError "Measuring an empty set of qubits.")
  | _ :: _ => Return (measure qubits key)
  end.

(** A circuit, as the sequence of operations appended to it. *)
Abbreviation Circuit := (list Operation).

Definition append (circuit : Circuit) (ops : list Operation) : Circuit :=
  circuit ++ ops.

Definition is_H (op : Operation) : bool :=
  match op with H _ => true | _ => false end.
Definition is_rotation (op : Operation) : bool :=
  match op with X_pow _ _ | Y_pow _ _ => true | _ => false end.
Definition is_CNOT (op : Operation) : bool :=
  match op with CNOT _ _ => true | _ => false end.
Definition is_measure (op : Operation) : bool :=
  match op with measure _ _ => true | _ => false end.

Definition count_ops (p : Operation -> bool) (circuit : Circuit) : nat :=
  length (filter (fun op => p op = true) circuit).

(** [result.measurements]: result label -> table of shots. *)
Abbreviation Measurements := (gmap string ndarray).

End Cirq.
Import Cirq.

(** ** middleware_hardware.py *)

Module Hardware.

Inductive QPUStatus : Type := READY | BUSY | ERROR | CALIBRATING.

Global Instance QPUStatus_eq_dec : EqDecision QPUStatus.
Proof. solve_decision. Defined.

(** [str(status)], as an f-string renders a plain [Enum] member. *)
Definition str (s : QPUStatus) : string :=
  match s with
  | READY => "QPUStatus.READY"
  | BUSY => "QPUStatus.BUSY"
  | ERROR => "QPUStatus.ERROR"
  | CALIBRATING => "QPUStatus.CALIBRATING"
  end.

Record QPUConfig : Type := mkQPUConfig {
  num_qubits : Z;
  coherence_time_us : float;
  gate_fidelity : float;
  readout_fidelity : float
}.

Definition default_config : QPUConfig :=
  {| num_qubits := 4;
     coherence_time_us := 100.0%float;
     gate_fidelity := 0.99%float;
     readout_fidelity := 0.98%float |}.

(** The fields of a [QPUHardwareInterface] object. *)
Record QPUHardwareInterface : Type := mkQPU {
  config : QPUConfig;
  status : QPUStatus;
  error_mitigation_enabled : bool;
  test_mode : bool
}.

(** [QPUHardwareInterface.__init__]. *)
Definition init (test_mode : bool) : QPUHardwareInterface :=
  {| config := default_config;
     status := READY;
     error_mitigation_enabled := true;
     test_mode := test_mode |}.

(** [self.status = st]. *)
Definition with_status (st : QPUStatus) (self : QPUHardwareInterface)
  : QPUHardwareInterface :=
  {| config := config self;
     status := st;
     error_mitigation_enabled := error_mitigation_enabled self;
     test_mode := test_mode self |}.

(** *** Methods as computations over the object *)

Definition M (A : Type) : Type :=
  QPUHardwareInterface -> outcome A * QPUHardwareInterface.

Global Instance M_ret : MRet M := fun A a self => (Return a, self).

Global Instance M_bind : MBind M := fun A B f m self =>
  match m self with
  | (Return a, self') => f a self'
  | (Raise e, self') => (Raise e, self')
  end.

Definition raise {A} (e : exn) : M A := fun self => (Raise e, self).

Definition get_self : M QPUHardwareInterface := fun self => (Return self, self).

Definition set_status (st : QPUStatus) : M unit :=
  fun self => (Return tt, with_status st self).

(** A result computed without touching the object. *)
Definition lift {A} (r : outcome A) : M A := fun self => (r, self).

(** [try: body  except Exception as e: handler e].  Mutations made by the
    body before it raised stay in place when the handler runs. *)
Definition try_except {A} (body : M A) (handler : exn -> M A) : M A :=
  fun self =>
    match body self with
    | (Return a, self') => (Return a, self')
    | (Raise e, self') => handler e self'
    end.

Definition print (msg : string) : M unit := mret tt.

(** *** QPUHardwareInterface *)

Section QPUHardwareInterface.

(** [str(circuit)], the text diagram that [print(circuit)] writes: [cirq]
    either renders the circuit or raises (it cannot render every
    exponent). *)
Variable circuit_str : Circuit -> outcome string.

(** The execution engine: [cirq.Simulator().run(circuit, repetitions)]
    either returns the measurement tables or raises. *)
Variable simulator_run : Circuit -> Z -> outcome Measurements.

(** The calibration sequence run between entering [CALIBRATING] and
    returning to [READY].  The class as shipped has only the test-mode
    stub [simulated_calibration] at this place. *)
Variable calibration_sequence : M unit.

Definition check_status : M QPUStatus :=
  self ← get_self;
  print "Current QPU status" ;;
  mret (status self).

(** The [try] block of [calibrate]. *)
Definition calibrate_try : M bool :=
  print "Starting QPU calibration..." ;;
  set_status CALIBRATING ;;
  calibration_sequence ;;
  set_status READY ;;
  print "Calibration completed successfully" ;;
  mret true.

(** The [except Exception as e] block of [calibrate]. *)
Definition calibrate_except (e : exn) : M bool :=
  print "Error: Calibration failed" ;;
  set_status ERROR ;;
  mret false.

Definition calibrate_with : M bool :=
  try_except calibrate_try calibrate_except.

(** [raw_results]: the dictionary [{'measurements': result.measurements}]. *)
Definition execute_circuit (circuit : Circuit)
  : M (option (gmap string Measurements)) :=
  self ← get_self;
  if decide (status self ≠ READY) then
    raise (RuntimeError ("QPU not ready. Current status: " +:+ str (status self)))
  else
    try_except
      (print "Executing quantum circuit:" ;;
       text ← lift (circuit_str circuit);
       print text ;;
       result ← lift (simulator_run circuit 100);
       print "Circuit execution completed successfully" ;;
       mret (Some {[ "measurements" := result ]}))
      (fun e =>
         print "Error: Circuit execution failed" ;;
         set_status ERROR ;;
         mret None).

End QPUHardwareInterface.

(** The body of [if self.test_mode: print(...)]. *)
Definition simulated_calibration : M unit :=
  self ← get_self;
  if test_mode self then print "Test Mode: Simulating calibration sequence..."
  else mret tt.

(** [QPUHardwareInterface.calibrate] as shipped. *)
Definition calibrate : M bool := calibrate_with simulated_calibration.

(** *** QuantumPatternRecognition *)

(** [[cirq.GridQubit(i, 0) for i in range(num_qubits)]]; [range] of a
    non-positive count is empty. *)
Definition init_qubits (num_qubits : Z) : list GridQubit :=
  (fun i : nat => mkGridQubit (Z.of_nat i) 0) <$> seq 0 (Z.to_nat num_qubits).

(** The data-encoding loop
    [for i, data in enumerate(input_data): if i >= len(self.qubits): break; ...].
    [i] is the index [enumerate] has reached. *)
Fixpoint encode_loop (qubits : list GridQubit) (i : nat)
    (input_data : list float) (circuit : Circuit) : Circuit :=
  match input_data with
  | [] => circuit
  | data :: rest =>
      if (length qubits <=? i)%nat then circuit
      else
        match qubits !! i with
        | Some q =>
            encode_loop qubits (S i) rest
              (append circuit [Y_pow (PrimFloat.div data np_pi) q])
        | None => circuit
        end
  end.

(** The entangling loop
    [for i in range(len(self.qubits) - 1): circuit.append(cirq.CNOT(self.qubits[i], self.qubits[i + 1]))]. *)
Definition entangle_loop (qubits : list GridQubit) (circuit : Circuit) : Circuit :=
  foldl
    (fun circuit i =>
       match qubits !! i, qubits !! (i + 1)%nat with
       | Some q, Some q' => append circuit [CNOT q q']
       | _, _ => circuit
       end)
    circuit (seq 0 (length qubits - 1)).

(** [qubits] is [self.qubits], the list made by [__init__]; the last
    statement, [circuit.append(cirq.measure( *self.qubits, key='result'))],
    raises when that list is empty, and no circuit is returned then. *)
Definition create_recognition_circuit (qubits : list GridQubit)
    (input_data : list float) : outcome Circuit :=
  let circuit : Circuit := [] in
  let circuit := append circuit (H <$> qubits) in
  let circuit := encode_loop qubits 0 input_data circuit in
  let circuit := entangle_loop qubits circuit in
  match cirq_measure qubits "result" with
  | Raise e => Raise e
  | Return measurement => Return (append circuit [measurement])
  end.

(** The dictionary returned by [_post_process_results]. *)
Record ProcessedResults : Type := mkProcessedResults {
  pattern_identified : bool;
  confidence_score : float
}.

(** [raw_results['measurements']['result']], then [np.mean], then
    [measurements[0][0]].  A missing key raises [KeyError]; indexing an
    axis of size 0 raises [IndexError]. *)
Definition _post_process_results (raw_results : gmap string Measurements)
  : outcome ProcessedResults :=
  match raw_results !! "measurements" with
  | None => Raise (KeyError "measurements")
  | Some by_label =>
      match by_label !! "result" with
      | None => Raise (KeyError "result")
      | Some measurements =>
          let confidence := np_mean measurements in
          match measurements with
          | [] => Raise (IndexError "index 0 is out of bounds for axis 0 with size 0")
          | shot0 :: _ =>
              match shot0 with
              | [] => Raise (IndexError "index 0 is out of bounds for axis 0 with size 0")
              | bit0 :: _ =>
                  Return {| pattern_identified := bit0;
                            confidence_score := confidence |}
              end
          end
      end
  end.

Section QuantumPatternRecognition.

Variable circuit_str : Circuit -> outcome string.
Variable simulator_run : Circuit -> Z -> outcome Measurements.

(** [QuantumPatternRecognition(qpu).process_vision_data]; [self.qubits] is
    the list [__init__] made from the configuration of [qpu], which no
    method changes. *)
Definition process_vision_data (vision_data : list float)
  : M ProcessedResults :=
  print "Processing vision data" ;;
  st ← check_status;
  (if decide (st ≠ READY) then _ ← calibrate; mret tt else mret tt) ;;
  self ← get_self;
  circuit ← lift (create_recognition_circuit
                    (init_qubits (num_qubits (config self))) vision_data);
  result ← execute_circuit circuit_str simulator_run circuit;
  match result with
  | None => raise (RuntimeError "Pattern recognition failed")
  | Some raw_results => lift (_post_process_results raw_results)
  end.

End QuantumPatternRecognition.

(** The builder of the specification: [build(feature_vector, qubit_count)]
    is [create_recognition_circuit] on the qubits allocated for
    [qubit_count]. *)
Definition build (feature_vector : list float) (qubit_count : Z)
  : outcome Circuit :=
  create_recognition_circuit (init_qubits qubit_count) feature_vector.

End Hardware.

(** ** middleware_simulation.py *)

Module Simulation.

Section Simulation.

(** The values a shot can take, i.e. the keys of the histogram. *)
Context {K : Type} `{EqDecision K}.

(** The histogram [result.histogram(key='result')]: a dictionary from
    outcome to count, in insertion order. *)
Definition keys (d : list (K * Z)) : list K := fst <$> d.

Fixpoint get (d : list (K * Z)) (k : K) : option Z :=
  match d with
  | [] => None
  | (k', v) :: d' => if decide (k' = k) then Some v else get d' k
  end.

(** [d.get] as the key function of [max]: on the dictionary's own keys it
    is the stored count ([None] arises for foreign keys only). *)
Definition count (d : list (K * Z)) (k : K) : Z := default 0 (get d k).

Definition create_quantum_circuit : Circuit :=
  let q0 := mkGridQubit 0 0 in
  let q1 := mkGridQubit 0 1 in
  let circuit : Circuit := [] in
  let circuit := append circuit [H q0; H q1] in
  let circuit :=
    append circuit [X_pow 0.25%float q0; Y_pow (PrimFloat.div 1 6) q1] in
  let circuit := append circuit [CNOT q0 q1] in
  let circuit := append circuit [measure [q0; q1] "result"] in
  circuit.

(** [simulator.run(circuit, repetitions)] followed by
    [result.histogram(key='result')]. *)
Variable simulator_histogram : Circuit -> Z -> outcome (list (K * Z)).

Definition simulate_quantum_circuit : outcome (list (K * Z)) :=
  let circuit := create_quantum_circuit in
  simulator_histogram circuit 100.

(** [MockRobotService.move_decision]: the service only reports the
    decision it is given.  [robot] is the list of decisions received so
    far. *)
Definition move_decision (decision : K) (robot : list K) : list K :=
  robot ++ [decision].

(** [optimize_movement()]; the function itself returns [None]. *)
Definition optimize_movement (robot : list K) : outcome unit * list K :=
  match simulate_quantum_circuit with
  | Raise e => (Raise e, robot)
  | Return simulation_results =>
      if bool_decide (simulation_results ≠ []) then
        match max_key (count simulation_results) (keys simulation_results) with
        | Raise e => (Raise e, robot)
        | Return movement_decision =>
            (Return tt, move_decision movement_decision robot)
        end
      else (Return tt, robot)
  end.

End Simulation.

End Simulation.

(** ** Notions used to state the properties *)

Module Spec.

Import Hardware.

(** The rotation [cirq.Y(q) ** (data / np.pi)] that encodes one feature. *)
Definition rotation (data : float) (q : GridQubit) : Operation :=
  Y_pow (PrimFloat.div data np_pi) q.

(** The qubit-0 channel of a table: [measurements[:, 0]]. *)
Definition qubit0_column (table : ndarray) : list bool := omap head table.

(** The confidence score in the specification's words: the mean of the
    qubit-0 bit over all shots, i.e. the fraction of shots in which qubit 0
    measured 1. *)
Definition spec_confidence_score (table : ndarray) : float :=
  PrimFloat.div (float_of_Z (bit_sum (qubit0_column table)))
                (float_of_Z (Z.of_nat (length table))).

(** The number of 1 bits in a table, over all qubits and all shots. *)
Definition total_ones (table : ndarray) : Z :=
  foldr (fun shot acc => bit_sum shot + acc) 0 table.

(** The operations of the recognition circuit, layer by layer: the
    Hadamard gates, the rotations of the features that have a qubit, the
    entangling chain and the measurement. *)
Definition circuit_layers (qubits : list GridQubit) (input_data : list float)
  : Circuit :=
  (H <$> qubits)
  ++ zip_with rotation input_data qubits
  ++ entangle_loop qubits []
  ++ [measure qubits "result"].

(** [raw_results] holding [table] under the label ['result']. *)
Definition raw_results_of (table : ndarray) : gmap string Measurements :=
  {[ "measurements" := {[ "result" := table ]} ]}.

(** A table of 100 shots of four qubits in which qubit 0 measured 1 in
    exactly the first 63 shots and the other qubits always measured 0. *)
Definition table_63_of_100 : ndarray :=
  replicate 63 [true; false; false; false]
  ++ replicate 37 [false; false; false; false].

(** A table of 100 shots of a single qubit that measured 1 in 63 shots. *)
Definition column_63_of_100 : ndarray :=
  replicate 63 [true] ++ replicate 37 [false].

(** The exception raised by the readiness gate of [execute_circuit]. *)
Definition not_ready_error (st : QPUStatus) : exn :=
  RuntimeError ("QPU not ready. Current status: " +:+ str st).

(** A renderer that draws every circuit. *)
Definition plain_str (circuit : Circuit) : outcome string :=
  Return "circuit".

(** A simulator that returns one shot of four zero bits per run. *)
Definition one_shot_simulator (circuit : Circuit) (repetitions : Z)
  : outcome Measurements :=
  Return {[ "result" := [[false; false; false; false]] ]}.

(** The histogram [{A: 40, B: 55, C: 5}]. *)
Definition histogram_ABC : list (string * Z) :=
  [("A", 40); ("B", 55); ("C", 5)].

End Spec.
Import Spec.

(** ** Callers of the interface *)

Module Clients.

Import Hardware.

(** [op.qubits]: the qubits an operation acts on. *)
Definition op_qubits (op : Operation) : list GridQubit :=
  match op with
  | H q | X_pow _ q | Y_pow _ q => [q]
  | CNOT control target => [control; target]
  | measure qubits _ => qubits
  end.

(** [test_pattern_recognition()]: a fresh interface in test mode, the
    literal feature vector, and a [try]/[except Exception] around the
    invocation whose two branches only print.  The function returns
    [None]; the object it created is handed back to show its final
    state. *)
Definition test_pattern_recognition
    (circuit_str : Circuit -> outcome string)
    (simulator_run : Circuit -> Z -> outcome Measurements)
  : outcome unit * QPUHardwareInterface :=
  let qpu := init true in
  let test_vision_data := [0.5; 0.3; 0.8; 0.1]%float in
  try_except
    (result ← process_vision_data circuit_str simulator_run test_vision_data;
     print "Test completed successfully!")
    (fun e => print "Error during testing")
    qpu.

(** One use of a [QPUHardwareInterface] (with its pattern-recognition
    front end) by a caller.  A call that submits a circuit comes with the
    behaviour of the simulator during that call. *)
Inductive call : Type :=
| CheckStatus
| Calibrate
| ExecuteCircuit (simulator_run : Circuit -> Z -> outcome Measurements)
                 (circuit : Circuit)
| ProcessVisionData (simulator_run : Circuit -> Z -> outcome Measurements)
                    (vision_data : list float).

(** The object after one call; an exception the call raised has been
    caught by the caller. *)
Definition after_call (circuit_str : Circuit -> outcome string)
    (c : call) (self : QPUHardwareInterface) : QPUHardwareInterface :=
  match c with
  | CheckStatus => (check_status self).2
  | Calibrate => (calibrate self).2
  | ExecuteCircuit run circuit =>
      (execute_circuit circuit_str run circuit self).2
  | ProcessVisionData run vision_data =>
      (process_vision_data circuit_str run vision_data self).2
  end.

(** The object after a sequence of calls, first call first. *)
Definition after_calls (circuit_str : Circuit -> outcome string)
    (calls : list call) (self : QPUHardwareInterface)
  : QPUHardwareInterface :=
  foldl (fun self c => after_call circuit_str c self) self calls.

(** The circuit of the literal feature vector [[0.5, 0.3, 0.8, 0.1]] on
    four qubits. *)
Definition demo_circuit : Circuit :=
  let q := fun i : Z => mkGridQubit i 0 in
  [ H (q 0); H (q 1); H (q 2); H (q 3);
    Y_pow (PrimFloat.div 0.5 np_pi) (q 0);
    Y_pow (PrimFloat.div 0.3 np_pi) (q 1);
    Y_pow (PrimFloat.div 0.8 np_pi) (q 2);
    Y_pow (PrimFloat.div 0.1 np_pi) (q 3);
    CNOT (q 0) (q 1); CNOT (q 1) (q 2); CNOT (q 2) (q 3);
    measure [q 0; q 1; q 2; q 3] "result" ].

(** A renderer that cannot draw any circuit. *)
Definition failing_str (circuit : Circuit) : outcome string :=
  Raise (Exception "cannot render").

(** The histogram [{A: 40, B: 55, C: 55}], with a tie for the maximum. *)
Definition histogram_tie : list (string * Z) :=
  [("A", 40); ("B", 55); ("C", 55)].


End Clients.
Import Clients.

(** * Properties *)

Import Hardware.

(** ** The status machine *)

Lemma with_status_status st self : status (with_status st self) = st.
Proof. reflexivity. Qed.

Lemma with_status_twice st st' self :
  with_status st (with_status st' self) = with_status st self.
Proof. reflexivity. Qed.

Lemma with_status_same self : with_status (status self) self = self.
Proof. by destruct self. Qed.

(** How [calibrate_with] depends on the outcome of the sequence it runs:
    the sequence starts in status [CALIBRATING], and its outcome alone
    selects between the two exits. *)
Lemma calibrate_with_unfold (seq : M unit) (self : QPUHardwareInterface) :
  calibrate_with seq self =
    match seq (with_status CALIBRATING self) with
    | (Return _, self') => (Return true, with_status READY self')
    | (Raise _, self') => (Return false, with_status ERROR self')
    end.
Proof.
  unfold calibrate_with, try_except, calibrate_try, calibrate_except, print,
    set_status, mbind, M_bind, mret, M_ret.
  by destruct (seq (with_status CALIBRATING self)) as [[[]|e] self'].
Qed.

Lemma simulated_calibration_returns self :
  simulated_calibration self = (Return tt, self).
Proof.
  unfold simulated_calibration, get_self, print, mbind, M_bind, mret, M_ret.
  by destruct (test_mode self).
Qed.

(** The readiness gate of [execute_circuit]. *)
Lemma execute_circuit_gate
    (circuit_str : Circuit -> outcome string)
    (run : Circuit -> Z -> outcome Measurements)
    (circuit : Circuit) (self : QPUHardwareInterface) :
  status self ≠ READY →
  execute_circuit circuit_str run circuit self
  = (Raise (not_ready_error (status self)), self).
Proof.
  intros Hs. unfold execute_circuit, get_self, raise, mbind, M_bind.
  by rewrite decide_True.
Qed.

(** C2.  Readiness gate: in any status other than [READY],
    [execute_circuit] raises the not-ready [RuntimeError], whose message
    names the current status, whatever the circuit, its rendering and the
    engine; the object, and so its status, is left as it was. *)
Theorem execute_circuit_not_ready
    (circuit_str : Circuit -> outcome string)
    (run : Circuit -> Z -> outcome Measurements)
    (circuit : Circuit) (self : QPUHardwareInterface) :
  status self ≠ READY →
  execute_circuit circuit_str run circuit self =
    (Raise (RuntimeError ("QPU not ready. Current status: " +:+ str (status self))),
     self).
Proof. intros Hs. by apply execute_circuit_gate. Qed.

Lemma execute_circuit_not_ready_witness :
  status (with_status BUSY (init true)) ≠ READY ∧
  execute_circuit plain_str (fun _ _ => Return ∅) []
    (with_status BUSY (init true)) =
    (Raise (RuntimeError "QPU not ready. Current status: QPUStatus.BUSY"),
     with_status BUSY (init true)).
Proof.
  split; [discriminate |].
  apply (execute_circuit_not_ready plain_str (fun _ _ => Return ∅) []
           (with_status BUSY (init true))).
  discriminate.
Defined.

(** C4.  Execution fault: from status [READY], an engine that raises makes
    [execute_circuit] return [None] (a value) and leaves the status
    [ERROR]; the readiness gate, in contrast, never returns a value, so
    the two failure channels cannot be confused. *)
Theorem execute_circuit_engine_fault
    (circuit_str : Circuit -> outcome string)
    (run : Circuit -> Z -> outcome Measurements)
    (circuit : Circuit) (self : QPUHardwareInterface) (e : exn) :
  status self = READY →
  run circuit 100 = Raise e →
  execute_circuit circuit_str run circuit self
  = (Return None, with_status ERROR self)
  ∧ status (execute_circuit circuit_str run circuit self).2 = ERROR
  ∧ (execute_circuit circuit_str run circuit self).1 = Return None
  ∧ ∀ circuit' self', status self' ≠ READY →
      is_return (execute_circuit circuit_str run circuit' self').1 = false
      ∧ status (execute_circuit circuit_str run circuit' self').2 = status self'.
Proof.
  intros Hs He.
  assert (Hex : execute_circuit circuit_str run circuit self
                = (Return None, with_status ERROR self)).
  { unfold execute_circuit, get_self, try_except, lift, print, set_status,
      mbind, M_bind, mret, M_ret.
    rewrite decide_False by (rewrite Hs; tauto).
    destruct (circuit_str circuit); [by rewrite He | done]. }
  rewrite Hex. split; [done |]. split; [done |]. split; [done |].
  intros circuit' self' Hs'. by rewrite execute_circuit_gate.
Qed.

Lemma execute_circuit_engine_fault_witness :
  execute_circuit plain_str (fun _ _ => Raise (Exception "simulator fault")) []
    (init true)
  = (Return None, with_status ERROR (init true)).
Proof.
  apply (execute_circuit_engine_fault plain_str
           (fun _ _ => Raise (Exception "simulator fault")) [] (init true)
           (Exception "simulator fault")); reflexivity.
Defined.


(** C10.  The shipped [calibrate] cannot fail: its [try] block never
    raises, so for every starting state it returns [True] and leaves the
    object with status [READY] (and otherwise unchanged); the [except]
    exit, which would return [False] with status [ERROR], is never
    taken. *)
Theorem calibrate_always_succeeds (self : QPUHardwareInterface) :
  calibrate_try simulated_calibration self = (Return true, with_status READY self)
  ∧ calibrate self = (Return true, with_status READY self)
  ∧ (calibrate self).1 ≠ Return false
  ∧ status (calibrate self).2 ≠ ERROR
  ∧ status (calibrate self).2 = READY.
Proof.
  assert (Hc : calibrate self = (Return true, with_status READY self)).
  { unfold calibrate. rewrite calibrate_with_unfold.
    by rewrite simulated_calibration_returns. }
  split; [| split; [exact Hc |]].
  - unfold calibrate_try, print, set_status, mbind, M_bind, mret, M_ret.
    by rewrite simulated_calibration_returns.
  - rewrite Hc. repeat split; discriminate.
Qed.

(** ** The circuit builder *)

(** The encoding loop pairs the features with the qubits from index [i]
    on, and stops with the shorter of the two. *)
Lemma encode_loop_zip (qubits : list GridQubit) (input_data : list float) :
  ∀ (i : nat) (circuit : Circuit),
    encode_loop qubits i input_data circuit
    = circuit ++ zip_with rotation input_data (drop i qubits).
Proof.
  induction input_data as [|data rest IH]; intros i circuit; cbn [encode_loop].
  - by rewrite app_nil_r.
  - destruct (Nat.leb_spec (length qubits) i) as [Hge|Hlt].
    + rewrite drop_ge by lia. by rewrite zip_with_nil_r, app_nil_r.
    + destruct (lookup_lt_is_Some_2 qubits i Hlt) as [q Hq].
      rewrite Hq, IH. rewrite (drop_S _ _ _ Hq). cbn [zip_with].
      unfold append. by rewrite <- app_assoc.
Qed.

Lemma zip_with_take_l {A B C} (f : A -> B -> C) (xs : list A) (ys : list B) :
  zip_with f (take (length ys) xs) ys = zip_with f xs ys.
Proof.
  revert ys. induction xs as [|x xs IH]; intros [|y ys]; cbn; try done.
  by rewrite IH.
Qed.

Lemma length_init_qubits (n : Z) : length (init_qubits n) = Z.to_nat n.
Proof. unfold init_qubits. by rewrite length_fmap, length_seq. Qed.

Lemma entangle_loop_app (qubits : list GridQubit) (circuit : Circuit) :
  entangle_loop qubits circuit = circuit ++ entangle_loop qubits [].
Proof.
  unfold entangle_loop.
  generalize (seq 0 (length qubits - 1)). intros l. revert circuit.
  induction l as [|i l IH] using rev_ind; intros circuit.
  - by rewrite app_nil_r.
  - rewrite !foldl_snoc, IH.
    destruct (qubits !! i), (qubits !! (i + 1)%nat); try done.
    unfold append. by rewrite <- app_assoc.
Qed.

Lemma entangle_loop_CNOT (qubits : list GridQubit) :
  Forall (fun op => is_CNOT op = true) (entangle_loop qubits []).
Proof.
  unfold entangle_loop.
  generalize (seq 0 (length qubits - 1)). intros l.
  induction l as [|i l IH] using rev_ind; [constructor |].
  rewrite foldl_snoc.
  destruct (qubits !! i), (qubits !! (i + 1)%nat); try done.
  unfold append. apply Forall_app. split; [done |]. by repeat constructor.
Qed.

Lemma count_ops_app p (c1 c2 : Circuit) :
  count_ops p (c1 ++ c2) = (count_ops p c1 + count_ops p c2)%nat.
Proof. unfold count_ops. by rewrite filter_app, length_app. Qed.

Lemma count_ops_none p (c : Circuit) :
  Forall (fun op => p op = false) c → count_ops p c = 0%nat.
Proof.
  unfold count_ops. induction 1 as [|op c Hop _ IH]; [done |].
  rewrite filter_cons_False by congruence. exact IH.
Qed.

Lemma count_ops_all p (c : Circuit) :
  Forall (fun op => p op = true) c → count_ops p c = length c.
Proof.
  unfold count_ops. induction 1 as [|op c Hop _ IH]; [done |].
  rewrite filter_cons_True by done. cbn. by rewrite IH.
Qed.

Lemma Forall_zip_with_rotation (input_data : list float) (qubits : list GridQubit) :
  Forall (fun op => is_rotation op = true) (zip_with rotation input_data qubits).
Proof.
  revert qubits. induction input_data as [|x xs IH]; intros [|q qs]; cbn;
    constructor; auto.
Qed.

(** The builder returns the layers of [circuit_layers], unless there is no
    qubit to measure: one [H] per qubit, one rotation per feature that has
    a qubit of its own index, then the entangling chain and the
    measurement, neither of which looks at the features. *)
Lemma create_recognition_circuit_cases
    (qubits : list GridQubit) (input_data : list float) :
  create_recognition_circuit qubits input_data
  = match qubits with
    | [] => Raise (ValueError "Measuring an empty set of qubits.")
    | _ :: _ => Return (circuit_layers qubits input_data)
    end.
Proof.
  unfold create_recognition_circuit, circuit_layers. cbv zeta.
  destruct qubits as [|q qubits]; [done |].
  cbn [cirq_measure]. rewrite encode_loop_zip, drop_0, entangle_loop_app.
  unfold append. cbn [app]. by rewrite <- !app_assoc.
Qed.

Lemma init_qubits_nil (n : Z) : init_qubits n = [] ↔ n <= 0.
Proof.
  pose proof (length_init_qubits n) as Hq. split.
  - intros Hnil. rewrite Hnil in Hq. cbn in Hq. lia.
  - intros Hn. apply length_zero_iff_nil. rewrite Hq. lia.
Qed.

Lemma build_returns (feature_vector : list float) (qubit_count : Z) :
  0 < qubit_count →
  build feature_vector qubit_count
  = Return (circuit_layers (init_qubits qubit_count) feature_vector).
Proof.
  intros Hn. unfold build. rewrite create_recognition_circuit_cases.
  destruct (init_qubits qubit_count) eqn:Hq; [| done].
  apply init_qubits_nil in Hq. lia.
Qed.

Lemma build_raises (feature_vector : list float) (qubit_count : Z) :
  qubit_count <= 0 →
  build feature_vector qubit_count
  = Raise (ValueError "Measuring an empty set of qubits.").
Proof.
  intros Hn. unfold build. rewrite create_recognition_circuit_cases.
  by rewrite (proj2 (init_qubits_nil qubit_count) Hn).
Qed.

Lemma build_inv (feature_vector : list float) (qubit_count : Z)
    (circuit : Circuit) :
  build feature_vector qubit_count = Return circuit →
  0 < qubit_count
  ∧ circuit = circuit_layers (init_qubits qubit_count) feature_vector.
Proof.
  intros Hb. destruct (decide (0 < qubit_count)) as [Hn | Hn].
  - rewrite build_returns in Hb by done. by injection Hb as <-.
  - by rewrite build_raises in Hb by lia.
Qed.

(** The rotations of the layers: as many as there are features with a
    qubit, the feature of index [i] on the qubit of index [i]. *)
Lemma circuit_layers_rotations (feature_vector : list float) (qubit_count : Z) :
  count_ops is_rotation (circuit_layers (init_qubits qubit_count) feature_vector)
  = (length feature_vector `min` Z.to_nat qubit_count)%nat
  ∧ ∀ i data,
      (i < Z.to_nat qubit_count)%nat →
      feature_vector !! i = Some data →
      circuit_layers (init_qubits qubit_count) feature_vector
        !! (Z.to_nat qubit_count + i)%nat
      = Some (rotation data (mkGridQubit (Z.of_nat i) 0)).
Proof.
  pose proof (length_init_qubits qubit_count) as Hq.
  unfold circuit_layers. split.
  - rewrite !count_ops_app.
    rewrite (count_ops_none is_rotation (H <$> _)) by (apply Forall_fmap, Forall_true; done).
    rewrite (count_ops_all is_rotation (zip_with _ _ _)) by apply Forall_zip_with_rotation.
    rewrite (count_ops_none is_rotation (entangle_loop _ _))
      by (eapply Forall_impl; [apply entangle_loop_CNOT | by intros []]).
    change (count_ops is_rotation [measure (init_qubits qubit_count) "result"])
      with 0%nat.
    rewrite length_zip_with, Hq. lia.
  - intros i data Hi Hdata.
    pose proof (lookup_lt_Some _ _ _ Hdata) as Hlt.
    rewrite lookup_app_r by (rewrite length_fmap, Hq; lia).
    rewrite length_fmap, Hq.
    replace (Z.to_nat qubit_count + i - Z.to_nat qubit_count)%nat with i by lia.
    rewrite lookup_app_l by (rewrite length_zip_with, Hq; lia).
    rewrite lookup_zip_with, Hdata. cbn.
    unfold init_qubits. rewrite list_lookup_fmap, lookup_seq_lt by lia.
    reflexivity.
Qed.

(** C6.  Feature truncation: a feature vector longer than the qubit count
    yields the very circuit of its first [qubit_count] entries.  The
    entries kept are rotations on the qubits of their own index; the
    others are dropped, not wrapped and not an error: with at least one
    qubit the builder returns a circuit. *)
Theorem build_truncates (qubit_count : Z) (feature_vector : list float) :
  (Z.to_nat qubit_count < length feature_vector)%nat →
  build feature_vector qubit_count
  = build (take (Z.to_nat qubit_count) feature_vector) qubit_count
  ∧ (0 < qubit_count → is_return (build feature_vector qubit_count) = true)
  ∧ ∀ circuit,
      build feature_vector qubit_count = Return circuit →
      count_ops is_rotation circuit = Z.to_nat qubit_count
      ∧ ∀ i data,
          (i < Z.to_nat qubit_count)%nat →
          feature_vector !! i = Some data →
          circuit !! (Z.to_nat qubit_count + i)%nat
          = Some (rotation data (mkGridQubit (Z.of_nat i) 0)).
Proof.
  intros Hlen.
  pose proof (length_init_qubits qubit_count) as Hq.
  split; [| split].
  - unfold build. rewrite !create_recognition_circuit_cases.
    destruct (init_qubits qubit_count) as [|q qubits] eqn:Hqs; [done |].
    unfold circuit_layers. by rewrite <- Hq, zip_with_take_l.
  - intros Hn. by rewrite build_returns.
  - intros circuit Hb. apply build_inv in Hb as [Hn ->].
    destruct (circuit_layers_rotations feature_vector qubit_count)
      as [Hcount Hlookup].
    split; [rewrite Hcount; lia | exact Hlookup].
Qed.

Lemma build_truncates_witness :
  (Z.to_nat 2 < length [0.5; 0.3; 0.8]%float)%nat
  ∧ build [0.5; 0.3; 0.8]%float 2 = build [0.5; 0.3]%float 2.
Proof.
  split; [cbn; lia |].
  apply (build_truncates 2 [0.5; 0.3; 0.8]%float). cbn. lia.
Defined.

(** C7.  The demonstration scenario: four qubits and the feature vector
    [[0.5, 0.3, 0.8, 0.1]] give four Hadamard gates, four rotations (on
    qubit [i], with exponent [feature_i / pi]), three CNOT gates on the
    adjacent pairs (0,1), (1,2), (2,3), and one final measurement of all
    four qubits under the label ["result"]; nothing else. *)
Theorem build_demo_circuit :
  let q := fun i : Z => mkGridQubit i 0 in
  let circuit :=
    [ H (q 0); H (q 1); H (q 2); H (q 3);
      Y_pow (PrimFloat.div 0.5 np_pi) (q 0);
      Y_pow (PrimFloat.div 0.3 np_pi) (q 1);
      Y_pow (PrimFloat.div 0.8 np_pi) (q 2);
      Y_pow (PrimFloat.div 0.1 np_pi) (q 3);
      CNOT (q 0) (q 1); CNOT (q 1) (q 2); CNOT (q 2) (q 3);
      measure [q 0; q 1; q 2; q 3] "result" ] in
  build [0.5; 0.3; 0.8; 0.1]%float 4 = Return circuit
  ∧ count_ops is_H circuit = 4%nat
  ∧ count_ops is_rotation circuit = 4%nat
  ∧ count_ops is_CNOT circuit = 3%nat
  ∧ count_ops is_measure circuit = 1%nat
  ∧ last circuit = Some (measure (init_qubits 4) "result")
  ∧ build [0.5; 0.3; 0.8; 0.1]%float (num_qubits default_config)
    = Return circuit.
Proof. cbv zeta. repeat split; vm_compute; reflexivity. Qed.

(** ** The pattern-recognition decoder *)

Lemma bit_sum_app (xs ys : list bool) :
  bit_sum (xs ++ ys) = bit_sum xs + bit_sum ys.
Proof.
  induction xs as [|x xs IH]; [done |].
  change (bit_sum ((x :: xs) ++ ys)) with (Z.b2z x + bit_sum (xs ++ ys)).
  change (bit_sum (x :: xs)) with (Z.b2z x + bit_sum xs).
  rewrite IH. lia.
Qed.

Lemma bit_sum_concat (table : ndarray) :
  bit_sum (concat table) = total_ones table.
Proof.
  induction table as [|shot table IH]; [done |].
  change (concat (shot :: table)) with (shot ++ concat table).
  rewrite bit_sum_app, IH. reflexivity.
Qed.

Lemma length_concat_rect (table : ndarray) (width : nat) :
  Forall (fun shot => length shot = width) table →
  length (concat table) = (length table * width)%nat.
Proof.
  induction 1 as [|shot table Hshot _ IH]; cbn; [done |].
  rewrite length_app, IH, Hshot. lia.
Qed.

(** With a single measured qubit, every bit of the table is a qubit-0
    bit. *)
Lemma total_ones_single_column (table : ndarray) :
  Forall (fun shot => length shot = 1%nat) table →
  total_ones table = bit_sum (qubit0_column table).
Proof.
  induction 1 as [|shot table Hshot _ IH]; [done |].
  destruct shot as [|b [|? ?]]; try discriminate.
  change (total_ones ([b] :: table)) with (bit_sum [b] + total_ones table).
  change (bit_sum (qubit0_column ([b] :: table)))
    with (Z.b2z b + bit_sum (qubit0_column table)).
  rewrite IH. cbn. lia.
Qed.

(** C1, as the code has it.  On a table with at least one shot and at least
    one qubit (all shots of the same width), the decoder returns as
    [pattern_identified] the qubit-0 bit of the first shot, and as
    [confidence_score] the mean of all measured bits, over all qubits and
    all shots: the number of 1 bits divided by shots times width.  When a
    single qubit is measured this is the fraction of shots in which
    qubit 0 measured 1. *)
Theorem post_process_results_mean
    (raw_results : gmap string Measurements) (by_label : Measurements)
    (bit0 : bool) (shot0 : list bool) (rest : ndarray) :
  let table := (bit0 :: shot0) :: rest in
  let width := S (length shot0) in
  raw_results !! "measurements" = Some by_label →
  by_label !! "result" = Some table →
  Forall (fun shot => length shot = width) rest →
  _post_process_results raw_results
  = Return {| pattern_identified := bit0;
              confidence_score :=
                PrimFloat.div (float_of_Z (total_ones table))
                  (float_of_Z (Z.of_nat (length table * width))) |}
  ∧ (shot0 = [] →
     _post_process_results raw_results
     = Return {| pattern_identified := bit0;
                 confidence_score := spec_confidence_score table |}).
Proof.
  cbv zeta. intros Hraw Hlabel Hrect.
  assert (Hall : Forall (fun shot => length shot = S (length shot0))
                   ((bit0 :: shot0) :: rest)) by (by constructor).
  assert (Hpost : _post_process_results raw_results
          = Return {| pattern_identified := bit0;
                      confidence_score := np_mean ((bit0 :: shot0) :: rest) |}).
  { unfold _post_process_results. by rewrite Hraw, Hlabel. }
  assert (Hmean : np_mean ((bit0 :: shot0) :: rest)
          = PrimFloat.div (float_of_Z (total_ones ((bit0 :: shot0) :: rest)))
              (float_of_Z (Z.of_nat
                 (length ((bit0 :: shot0) :: rest) * S (length shot0))))).
  { unfold np_mean. cbv zeta.
    by rewrite bit_sum_concat, (length_concat_rect _ _ Hall). }
  split.
  - by rewrite Hpost, Hmean.
  - intros ->. rewrite Hpost, Hmean. unfold spec_confidence_score.
    rewrite (total_ones_single_column _ Hall).
    by rewrite Nat.mul_1_r.
Qed.

Lemma post_process_results_mean_witness :
  _post_process_results (raw_results_of column_63_of_100)
  = Return {| pattern_identified := true; confidence_score := 0.63%float |}.
Proof.
  refine (eq_trans
    (proj1 (post_process_results_mean (raw_results_of column_63_of_100)
              {[ "result" := column_63_of_100 ]} true []
              (replicate 62 [true] ++ replicate 37 [false]) _ _ _)) _).
  - reflexivity.
  - reflexivity.
  - vm_compute. repeat constructor.
  - vm_compute. reflexivity.
Defined.

(** C1, as stated, fails: on a four-qubit table of 100 shots in which
    qubit 0 measured 1 in 63 shots (so that the mean of the qubit-0 bit is
    0.63), the decoder's [confidence_score] is 63/400 = 0.1575. *)
Lemma post_process_results_not_qubit0_mean :
  spec_confidence_score table_63_of_100 = 0.63%float
  ∧ _post_process_results (raw_results_of table_63_of_100)
    = Return {| pattern_identified := true; confidence_score := 0.1575%float |}
  ∧ PrimFloat.eqb 0.1575 0.63 = false.
Proof. repeat split; vm_compute; reflexivity. Qed.

(** C8, as the code has it.  The pattern-recognition decoder raises on a
    missing key ([KeyError], for the result label as for the
    ['measurements'] entry) and on a table without shots or without qubits
    ([IndexError]).  The optimisation decoder does not raise on an empty
    histogram: it skips the selection, sends nothing to the robot and
    returns normally. *)
Theorem decoders_on_empty_input
    (raw_results : gmap string Measurements) (by_label : Measurements)
    (rest : ndarray) (K : Type) `{EqDecision K} (robot : list K) :
  _post_process_results (delete "measurements" raw_results)
  = Raise (KeyError "measurements")
  ∧ _post_process_results (<["measurements" := delete "result" by_label]> raw_results)
    = Raise (KeyError "result")
  ∧ _post_process_results (<["measurements" := <["result" := []]> by_label]> raw_results)
    = Raise (IndexError "index 0 is out of bounds for axis 0 with size 0")
  ∧ _post_process_results
      (<["measurements" := <["result" := [] :: rest]> by_label]> raw_results)
    = Raise (IndexError "index 0 is out of bounds for axis 0 with size 0")
  ∧ Simulation.optimize_movement (fun _ _ => Return []) robot = (Return tt, robot).
Proof.
  unfold _post_process_results.
  rewrite lookup_delete_eq, !lookup_insert_eq, lookup_delete_eq.
  repeat split.
Qed.

(** C8, as stated, fails for the optimisation decoder: with an empty
    histogram [optimize_movement] returns [None] without raising. *)
Lemma optimize_movement_empty_histogram_returns :
  Simulation.optimize_movement (K := Z) (fun _ _ => Return []) []
  = (Return tt, []).
Proof. reflexivity. Qed.

(** ** The optimisation decoder *)

Lemma max_from_spec {A} (f : A -> Z) (rest : list A) :
  ∀ best : A,
    max_from f best rest ∈ best :: rest
    ∧ ∀ x, x ∈ best :: rest → f x <= f (max_from f best rest).
Proof.
  induction rest as [|y rest IH]; intros best; cbn [max_from].
  - split; [left |]. intros x Hx.
    apply list_elem_of_singleton in Hx as ->. lia.
  - destruct (IH (if f best <? f y then y else best)) as [Hin Hmax].
    split.
    + apply elem_of_cons in Hin as [-> | Hin].
      * destruct (f best <? f y); [right; left | left].
      * by do 2 right.
    + intros x Hx.
      assert (Hstep : f best <= f (if f best <? f y then y else best)
                      ∧ f y <= f (if f best <? f y then y else best)).
      { destruct (Z.ltb_spec (f best) (f y)); lia. }
      pose proof (Hmax _ (list_elem_of_here _ _)) as Hcur.
      apply elem_of_cons in Hx as [-> | Hx]; [lia |].
      apply elem_of_cons in Hx as [-> | Hx]; [lia |].
      apply Hmax. by apply list_elem_of_further.
Qed.

Section Histogram.

Context {K : Type} `{EqDecision K}.

(** In a dictionary (keys pairwise distinct) [get] finds every entry. *)
Lemma get_entry (d : list (K * Z)) (k : K) (n : Z) :
  NoDup (Simulation.keys d) → (k, n) ∈ d → Simulation.get d k = Some n.
Proof.
  unfold Simulation.keys.
  induction d as [|[k' v] d IH]; intros Hnd Hin; [by apply elem_of_nil in Hin |].
  cbn in Hnd. apply NoDup_cons in Hnd as [Hfresh Hnd]. cbn [Simulation.get].
  apply elem_of_cons in Hin as [Heq | Hin].
  - injection Heq as -> ->. by rewrite decide_True.
  - rewrite decide_False; [by apply IH |].
    intros ->. apply Hfresh. apply list_elem_of_fmap. by exists (k, n).
Qed.

Lemma key_has_entry (d : list (K * Z)) (k : K) :
  k ∈ Simulation.keys d → (k, Simulation.count d k) ∈ d.
Proof.
  unfold Simulation.keys, Simulation.count.
  induction d as [|[k' v] d IH]; intros Hin; [by apply elem_of_nil in Hin |].
  cbn [Simulation.get]. destruct (decide (k' = k)) as [-> | Hne].
  - cbn. apply list_elem_of_here.
  - cbn in Hin. apply elem_of_cons in Hin as [-> | Hin]; [done |].
    apply list_elem_of_further. by apply IH.
Qed.

End Histogram.

(** C9.  Histogram selection: on a non-empty histogram (a dictionary, so
    with pairwise distinct outcomes), [optimize_movement] sends exactly one
    decision to the robot, namely an outcome of the histogram whose count
    is at least the count of every outcome in it. *)
Theorem optimize_movement_selects_max
    (K : Type) `{EqDecision K}
    (simulator_histogram : Circuit -> Z -> outcome (list (K * Z)))
    (histogram : list (K * Z)) (robot : list K) :
  simulator_histogram Simulation.create_quantum_circuit 100 = Return histogram →
  histogram ≠ [] →
  NoDup (Simulation.keys histogram) →
  ∃ (selected : K) (n : Z),
    Simulation.optimize_movement simulator_histogram robot
    = (Return tt, robot ++ [selected])
    ∧ (selected, n) ∈ histogram
    ∧ ∀ k' n', (k', n') ∈ histogram → n' <= n.
Proof.
  intros Hrun Hne Hnd.
  destruct histogram as [|[k0 v0] d]; [done |].
  set (h := (k0, v0) :: d) in *.
  destruct (max_from_spec (Simulation.count h) (Simulation.keys d) k0)
    as [Hin Hmax].
  exists (max_from (Simulation.count h) k0 (Simulation.keys d)),
    (Simulation.count h (max_from (Simulation.count h) k0 (Simulation.keys d))).
  split; [| split].
  - unfold Simulation.optimize_movement, Simulation.simulate_quantum_circuit.
    cbv zeta. rewrite Hrun. by rewrite bool_decide_eq_true_2.
  - by apply key_has_entry.
  - intros k' n' Hk'.
    assert (Hkey : k' ∈ Simulation.keys h).
    { apply list_elem_of_fmap. by exists (k', n'). }
    specialize (Hmax k' Hkey).
    unfold Simulation.count at 1 in Hmax.
    by rewrite (get_entry h k' n' Hnd Hk') in Hmax.
Qed.

Lemma optimize_movement_selects_max_witness :
  Simulation.optimize_movement (fun _ _ => Return histogram_ABC) [] = (Return tt, ["B"])
  ∧ ∃ (selected : string) (n : Z),
      Simulation.optimize_movement (fun _ _ => Return histogram_ABC) []
      = (Return tt, [] ++ [selected])
      ∧ (selected, n) ∈ histogram_ABC
      ∧ ∀ k' n', (k', n') ∈ histogram_ABC → n' <= n.
Proof.
  split; [reflexivity |].
  apply (optimize_movement_selects_max string (fun _ _ => Return histogram_ABC)
           histogram_ABC []).
  - reflexivity.
  - discriminate.
  - apply (bool_decide_unpack _). reflexivity.
Defined.

(** ** The orchestration *)

(** [execute_circuit] on an object that is [READY]: the circuit is
    rendered for the console, then the engine is asked to run it with 100
    repetitions; a failure of either ends in the [except] branch. *)
Lemma execute_circuit_ready
    (circuit_str : Circuit -> outcome string)
    (run : Circuit -> Z -> outcome Measurements)
    (circuit : Circuit) (self : QPUHardwareInterface) :
  status self = READY →
  execute_circuit circuit_str run circuit self
  = match circuit_str circuit with
    | Raise _ => (Return None, with_status ERROR self)
    | Return _ =>
        match run circuit 100 with
        | Return result => (Return (Some {[ "measurements" := result ]}), self)
        | Raise _ => (Return None, with_status ERROR self)
        end
    end.
Proof.
  intros Hs.
  unfold execute_circuit, get_self, try_except, lift, print, set_status,
    mbind, M_bind, mret, M_ret.
  rewrite decide_False by (rewrite Hs; tauto).
  destruct (circuit_str circuit); [| done].
  by destruct (run circuit 100).
Qed.

(** The status check of [process_vision_data], with the calibration it
    may start, leaves the object [READY] and otherwise as it was. *)
Lemma process_vision_data_unfold
    (circuit_str : Circuit -> outcome string)
    (run : Circuit -> Z -> outcome Measurements) (vision_data : list float)
    (self : QPUHardwareInterface) :
  process_vision_data circuit_str run vision_data self
  = match build vision_data (num_qubits (config self)) with
    | Raise e => (Raise e, with_status READY self)
    | Return circuit =>
        match execute_circuit circuit_str run circuit (with_status READY self) with
        | (Return None, self') =>
            (Raise (RuntimeError "Pattern recognition failed"), self')
        | (Return (Some raw_results), self') =>
            (_post_process_results raw_results, self')
        | (Raise e, self') => (Raise e, self')
        end
    end.
Proof.
  assert (Hstate :
    (if decide (status self ≠ READY)
     then (calibrate self).2 else self) = with_status READY self).
  { destruct (decide (status self ≠ READY)) as [Hs | Hs].
    - unfold calibrate.
      by rewrite calibrate_with_unfold, simulated_calibration_returns.
    - apply dec_stable in Hs. rewrite <- Hs. by rewrite with_status_same. }
  unfold process_vision_data, check_status, get_self, lift, print, raise,
    mbind, M_bind, mret, M_ret.
  destruct (decide (status self ≠ READY)) as [Hs | Hs].
  - unfold calibrate in *.
    rewrite calibrate_with_unfold, simulated_calibration_returns in *.
    cbn [snd fst config with_status] in *. unfold build.
    destruct (create_recognition_circuit _ vision_data) as [circuit|e]; [| done].
    by destruct (execute_circuit circuit_str run circuit _) as [[[raw|]|e] self'].
  - rewrite <- Hstate. unfold build.
    destruct (create_recognition_circuit _ vision_data) as [circuit|e]; [| done].
    by destruct (execute_circuit circuit_str run circuit _) as [[[raw|]|e] self'].
Qed.

(** The invocation, for every start state, in terms of what the builder,
    the renderer and the engine do. *)
Lemma process_vision_data_cases
    (circuit_str : Circuit -> outcome string)
    (run : Circuit -> Z -> outcome Measurements) (vision_data : list float)
    (self : QPUHardwareInterface) :
  process_vision_data circuit_str run vision_data self
  = match build vision_data (num_qubits (config self)) with
    | Raise e => (Raise e, with_status READY self)
    | Return circuit =>
        match circuit_str circuit with
        | Raise _ =>
            (Raise (RuntimeError "Pattern recognition failed"),
             with_status ERROR self)
        | Return _ =>
            match run circuit 100 with
            | Return result =>
                (_post_process_results {[ "measurements" := result ]},
                 with_status READY self)
            | Raise _ =>
                (Raise (RuntimeError "Pattern recognition failed"),
                 with_status ERROR self)
            end
        end
    end.
Proof.
  rewrite process_vision_data_unfold.
  destruct (build vision_data _) as [circuit|e]; [| done].
  rewrite execute_circuit_ready by done.
  destruct (circuit_str circuit); [| done].
  by destruct (run circuit 100).
Qed.

(** * Further properties *)

(** ** execute_circuit and the pipeline around it *)

(** X1.  A successful submission: on an object that is [READY], when the
    circuit can be rendered for the console and the engine returns its
    measurement tables, [execute_circuit] returns the dictionary holding
    them under ['measurements'] and changes nothing in the object, so the
    status stays [READY]; the decoder then finds the ['measurements']
    entry. *)
Theorem execute_circuit_success
    (circuit_str : Circuit -> outcome string)
    (run : Circuit -> Z -> outcome Measurements)
    (circuit : Circuit) (self : QPUHardwareInterface)
    (text : string) (result : Measurements) :
  status self = READY →
  circuit_str circuit = Return text →
  run circuit 100 = Return result →
  execute_circuit circuit_str run circuit self
  = (Return (Some {[ "measurements" := result ]}), self)
  ∧ status (execute_circuit circuit_str run circuit self).2 = READY
  ∧ ∀ raw_results,
      (execute_circuit circuit_str run circuit self).1
      = Return (Some raw_results) →
      _post_process_results raw_results ≠ Raise (KeyError "measurements").
Proof.
  intros Hs Hstr Hrun. rewrite (execute_circuit_ready _ _ _ _ Hs), Hstr, Hrun.
  split; [done |]. split; [done |]. intros raw [= <-].
  unfold _post_process_results. rewrite lookup_singleton_eq.
  destruct (result !! "result") as [[|[|? ?] ?]|]; discriminate.
Qed.

Lemma execute_circuit_success_witness :
  execute_circuit plain_str one_shot_simulator [] (init true)
  = (Return (Some {[ "measurements" :=
                       {[ "result" := [[false; false; false; false]] ]} ]}),
     init true).
Proof.
  apply (execute_circuit_success plain_str one_shot_simulator [] (init true)
           "circuit" {[ "result" := [[false; false; false; false]] ]});
    reflexivity.
Defined.



(** X3.  The invocation, from every start state.  When there is no qubit
    to measure the builder's [ValueError] reaches the caller.  Otherwise
    the circuit built from the features and the configured qubit count is
    rendered for the console and the engine is asked once, with 100
    repetitions: if the rendering or the engine raises, the invocation
    raises [RuntimeError("Pattern recognition failed")] and the status is
    [ERROR]; if both return, the outcome is that of the decoder and the
    status is [READY].  The start status has no influence, and the
    not-ready error never reaches the caller. *)
Theorem process_vision_data_outcome
    (circuit_str : Circuit -> outcome string)
    (run : Circuit -> Z -> outcome Measurements) (vision_data : list float)
    (self : QPUHardwareInterface) :
  process_vision_data circuit_str run vision_data self
  = match build vision_data (num_qubits (config self)) with
    | Raise e => (Raise e, with_status READY self)
    | Return circuit =>
        match circuit_str circuit with
        | Raise _ =>
            (Raise (RuntimeError "Pattern recognition failed"),
             with_status ERROR self)
        | Return _ =>
            match run circuit 100 with
            | Return result =>
                (_post_process_results {[ "measurements" := result ]},
                 with_status READY self)
            | Raise _ =>
                (Raise (RuntimeError "Pattern recognition failed"),
                 with_status ERROR self)
            end
        end
    end
  ∧ (status (process_vision_data circuit_str run vision_data self).2 = READY
     ∨ status (process_vision_data circuit_str run vision_data self).2 = ERROR)
  ∧ (∀ st, process_vision_data circuit_str run vision_data (with_status st self)
           = process_vision_data circuit_str run vision_data self)
  ∧ ∀ st, (process_vision_data circuit_str run vision_data self).1
          ≠ Raise (not_ready_error st).
Proof.
  split; [apply process_vision_data_cases | split; [| split]].
  - rewrite process_vision_data_cases.
    destruct (build vision_data _) as [circuit|e]; [| by left].
    destruct (circuit_str circuit); [| by right].
    destruct (run circuit 100); [by left | by right].
  - intros st. rewrite !process_vision_data_cases. cbn [config with_status].
    by rewrite !with_status_twice.
  - intros st. rewrite process_vision_data_cases.
    destruct (build vision_data _) as [circuit|e] eqn:Hb.
    + destruct (circuit_str circuit); [| by destruct st].
      destruct (run circuit 100) as [result|e]; cbn [fst]; [| by destruct st].
      unfold _post_process_results. rewrite lookup_singleton_eq.
      destruct (result !! "result") as [[|[|? ?] ?]|]; discriminate.
    + destruct (decide (0 < num_qubits (config self))) as [Hn | Hn].
      * by rewrite build_returns in Hb.
      * rewrite build_raises in Hb by lia. injection Hb as <-. discriminate.
Qed.

(** A call changes nothing in the object but, possibly, the status, which
    it leaves as it was or sets to [READY] or [ERROR]. *)
Lemma after_call_status (circuit_str : Circuit -> outcome string)
    (c : call) (self : QPUHardwareInterface) :
  ∃ st, after_call circuit_str c self = with_status st self
        ∧ (st = status self ∨ st = READY ∨ st = ERROR).
Proof.
  destruct c as [| |run circuit|run vision_data]; cbn [after_call].
  - exists (status self). by rewrite with_status_same; auto.
  - exists READY. unfold calibrate.
    rewrite calibrate_with_unfold, simulated_calibration_returns. auto.
  - destruct (decide (status self = READY)) as [Hs | Hs].
    + rewrite (execute_circuit_ready _ _ _ _ Hs).
      destruct (circuit_str circuit); [| exists ERROR; auto].
      destruct (run circuit 100).
      * exists (status self). by rewrite with_status_same; auto.
      * exists ERROR. auto.
    + rewrite execute_circuit_gate by done.
      exists (status self). by rewrite with_status_same; auto.
  - rewrite process_vision_data_cases.
    destruct (build vision_data _) as [circuit|e]; [| exists READY; auto].
    destruct (circuit_str circuit); [| exists ERROR; auto].
    destruct (run _ 100); [exists READY | exists ERROR]; auto.
Qed.

(** X4.  What no sequence of calls does.  However [check_status],
    [calibrate], [execute_circuit] and [process_vision_data] are mixed, and
    whatever the simulator does in each call, the configuration and the
    two flags of the object stay as they were, and the status is the
    initial one, [READY] or [ERROR]: an object created by the constructor
    is never seen [BUSY] or [CALIBRATING]. *)
Theorem after_calls_invariant (circuit_str : Circuit -> outcome string)
    (calls : list call) (self : QPUHardwareInterface) (mode : bool) :
  config (after_calls circuit_str calls self) = config self
  ∧ test_mode (after_calls circuit_str calls self) = test_mode self
  ∧ error_mitigation_enabled (after_calls circuit_str calls self)
    = error_mitigation_enabled self
  ∧ (status (after_calls circuit_str calls self) = status self
     ∨ status (after_calls circuit_str calls self) = READY
     ∨ status (after_calls circuit_str calls self) = ERROR)
  ∧ status (after_calls circuit_str calls (init mode)) ≠ BUSY
  ∧ status (after_calls circuit_str calls (init mode)) ≠ CALIBRATING.
Proof.
  assert (Hall : ∀ calls self,
    ∃ st, after_calls circuit_str calls self = with_status st self
          ∧ (st = status self ∨ st = READY ∨ st = ERROR)).
  { clear. induction calls as [|c calls IH]; intros self.
    - exists (status self). by rewrite with_status_same; auto.
    - change (after_calls circuit_str (c :: calls) self)
        with (after_calls circuit_str calls (after_call circuit_str c self)).
      destruct (after_call_status circuit_str c self) as (st1 & -> & Hst1).
      destruct (IH (with_status st1 self)) as (st2 & -> & Hst2).
      exists st2. rewrite with_status_twice. split; [done |].
      cbn [status with_status] in Hst2. intuition congruence. }
  destruct (Hall calls self) as (st & -> & Hst).
  destruct (Hall calls (init mode)) as (st' & -> & Hst').
  cbn [config test_mode error_mitigation_enabled status with_status init] in *.
  repeat split; try tauto.
  - intros ->. intuition discriminate.
  - intros ->. intuition discriminate.
Qed.

(** X5.  The test function never lets an exception escape, whatever the
    renderer and the simulator do, whether the engine or the decoder
    failed: it returns [None].  The circuit it submits is the four-qubit
    circuit of the literal feature vector, and the object is left [READY]
    when that circuit was rendered and the engine answered, and [ERROR]
    when either raised. *)
Theorem test_pattern_recognition_returns
    (circuit_str : Circuit -> outcome string)
    (run : Circuit -> Z -> outcome Measurements) :
  let final :=
    if is_return (circuit_str demo_circuit) && is_return (run demo_circuit 100)
    then READY else ERROR in
  build [0.5; 0.3; 0.8; 0.1]%float 4 = Return demo_circuit
  ∧ test_pattern_recognition circuit_str run
    = (Return tt, with_status final (init true))
  ∧ status (test_pattern_recognition circuit_str run).2 = final.
Proof.
  cbv zeta.
  assert (Hb : build [0.5; 0.3; 0.8; 0.1]%float 4 = Return demo_circuit)
    by (vm_compute; reflexivity).
  assert (Ht : test_pattern_recognition circuit_str run
          = (Return tt,
             with_status
               (if is_return (circuit_str demo_circuit)
                   && is_return (run demo_circuit 100)
                then READY else ERROR) (init true))).
  { unfold test_pattern_recognition, try_except, print, mbind, M_bind, mret, M_ret.
    cbv zeta. rewrite process_vision_data_cases.
    change (num_qubits (config (init true))) with 4. rewrite Hb.
    destruct (circuit_str demo_circuit); cbn [is_return andb]; [| done].
    destruct (run demo_circuit 100) as [result|e]; cbn [is_return]; [| done].
    by destruct (_post_process_results _). }
  split; [exact Hb |]. split; [exact Ht |]. by rewrite Ht.
Qed.

(** ** More on the circuit builder *)

Lemma init_qubits_lookup (n : Z) (i : nat) :
  init_qubits n !! i
  = if decide (i < Z.to_nat n)%nat then Some (mkGridQubit (Z.of_nat i) 0)
    else None.
Proof.
  unfold init_qubits. rewrite list_lookup_fmap.
  destruct (decide (i < Z.to_nat n)%nat) as [Hi | Hi].
  - by rewrite lookup_seq_lt.
  - by rewrite lookup_seq_ge by lia.
Qed.

(** The entangling loop, run for its first [k] rounds, has appended the
    CNOT gates of the first [k] adjacent pairs. *)
Lemma entangle_rounds (qubits : list GridQubit) (k : nat) :
  (k <= length qubits - 1)%nat →
  foldl
    (fun (circuit : Circuit) i =>
       match qubits !! i, qubits !! (i + 1)%nat with
       | Some q, Some q' => append circuit [CNOT q q']
       | _, _ => circuit
       end)
    [] (seq 0 k)
  = zip_with CNOT (take k qubits) (take k (drop 1 qubits)).
Proof.
  induction k as [|k IH]; intros Hk; [done |].
  rewrite seq_S, foldl_snoc, IH by lia. cbn [Nat.add].
  destruct (lookup_lt_is_Some_2 qubits k ltac:(lia)) as [q Hq].
  destruct (lookup_lt_is_Some_2 qubits (k + 1) ltac:(lia)) as [q' Hq'].
  rewrite Hq, Hq'.
  assert (Hq'' : drop 1 qubits !! k = Some q').
  { rewrite lookup_drop. by replace (1 + k)%nat with (k + 1)%nat by lia. }
  rewrite (take_S_r _ _ _ Hq), (take_S_r _ _ _ Hq'').
  rewrite zip_with_app; [done |].
  rewrite !length_take, length_drop. lia.
Qed.

Lemma entangle_loop_chain (qubits : list GridQubit) :
  entangle_loop qubits [] = zip_with CNOT qubits (drop 1 qubits).
Proof.
  unfold entangle_loop. rewrite entangle_rounds by lia.
  replace (length qubits - 1)%nat with (length (drop 1 qubits))
    by (rewrite length_drop; lia).
  rewrite (take_ge (drop 1 qubits)) by lia.
  apply zip_with_take_l.
Qed.

Lemma Forall_zip_with_elem {A B C} (f : A -> B -> C) (P : C -> Prop)
    (xs : list A) (ys : list B) :
  (∀ x y, x ∈ xs → y ∈ ys → P (f x y)) → Forall P (zip_with f xs ys).
Proof.
  intros HP. apply Forall_lookup_2. intros i z Hz.
  apply lookup_zip_with_Some in Hz as (x & y & -> & Hx & Hy).
  apply HP; apply list_elem_of_lookup; eauto.
Qed.

Lemma elem_of_init_qubits (n : Z) (q : GridQubit) :
  q ∈ init_qubits n → 0 <= row q < n ∧ col q = 0.
Proof.
  intros Hq. apply list_elem_of_lookup in Hq as [i Hi].
  rewrite init_qubits_lookup in Hi.
  destruct (decide (i < Z.to_nat n)%nat); [| done].
  injection Hi as <-. cbn. lia.
Qed.

(** The operations of each layer of [build], by kind. *)
Lemma build_layer_kinds (feature_vector : list float) (qubits : list GridQubit) :
  Forall (fun op => is_H op = true) (H <$> qubits)
  ∧ Forall (fun op => is_rotation op = true)
      (zip_with rotation feature_vector qubits)
  ∧ Forall (fun op => is_CNOT op = true) (entangle_loop qubits [])
  ∧ Forall (fun op => is_measure op = true) [measure qubits "result"].
Proof.
  repeat split.
  - apply Forall_fmap, Forall_true. done.
  - apply Forall_zip_with_rotation.
  - apply entangle_loop_CNOT.
  - by repeat constructor.
Qed.

(** Counting the operations of kind [p] in a layer whose operations are
    all of one kind: all of them, or none. *)
Ltac count_same p HL := rewrite (count_ops_all p _ HL).
Ltac count_other p HL :=
  rewrite (count_ops_none p _
             (Forall_impl _ (fun op => p op = false) _ HL
                ltac:(by intros []))).

(** X6.  The qubits allocated for a qubit count [n] are
    [GridQubit(0, 0)], ..., [GridQubit(n-1, 0)] in this order, all
    distinct; for [n <= 0] there are none. *)
Theorem init_qubits_spec (n : Z) :
  length (init_qubits n) = Z.to_nat n
  ∧ NoDup (init_qubits n)
  ∧ (∀ i : nat,
       init_qubits n !! i
       = if decide (i < Z.to_nat n)%nat then Some (mkGridQubit (Z.of_nat i) 0)
         else None)
  ∧ ∀ q, q ∈ init_qubits n ↔ (0 <= row q < n ∧ col q = 0).
Proof.
  split; [apply length_init_qubits | split; [| split; [apply init_qubits_lookup |]]].
  - unfold init_qubits. apply NoDup_fmap_2_strong; [| apply NoDup_seq].
    intros i j _ _ [= Hij]. lia.
  - intros q. split; [apply elem_of_init_qubits |].
    intros [Hrow Hcol]. apply list_elem_of_lookup. exists (Z.to_nat (row q)).
    rewrite init_qubits_lookup, decide_True by lia.
    destruct q as [r c]; cbn in *. subst c. by rewrite Z2Nat.id by lia.
Qed.

(** The gate counts of the layers, and their last operation. *)
Lemma circuit_layers_counts (feature_vector : list float) (qubit_count : Z) :
  let n := Z.to_nat qubit_count in
  let circuit := circuit_layers (init_qubits qubit_count) feature_vector in
  count_ops is_H circuit = n
  ∧ count_ops is_rotation circuit = (length feature_vector `min` n)%nat
  ∧ count_ops is_CNOT circuit = (n - 1)%nat
  ∧ count_ops is_measure circuit = 1%nat
  ∧ length circuit = (n + length feature_vector `min` n + (n - 1) + 1)%nat
  ∧ last circuit = Some (measure (init_qubits qubit_count) "result").
Proof.
  cbv zeta. unfold circuit_layers.
  pose proof (length_init_qubits qubit_count) as Hq.
  destruct (build_layer_kinds feature_vector (init_qubits qubit_count))
    as (HH & HR & HC & HM).
  assert (Hchain : length (entangle_loop (init_qubits qubit_count) [])
                   = (Z.to_nat qubit_count - 1)%nat).
  { rewrite entangle_loop_chain, length_zip_with, length_drop, Hq. lia. }
  assert (Hrot : length (zip_with rotation feature_vector (init_qubits qubit_count))
                 = (length feature_vector `min` Z.to_nat qubit_count)%nat).
  { by rewrite length_zip_with, Hq. }
  rewrite !count_ops_app, !length_app, !length_fmap, Hq, Hchain, Hrot.
  repeat split.
  - count_same is_H HH. count_other is_H HR. count_other is_H HC.
    count_other is_H HM. rewrite length_fmap, Hq. lia.
  - count_other is_rotation HH. count_same is_rotation HR.
    count_other is_rotation HC. count_other is_rotation HM. rewrite Hrot. lia.
  - count_other is_CNOT HH. count_other is_CNOT HR. count_same is_CNOT HC.
    count_other is_CNOT HM. rewrite Hchain. lia.
  - count_other is_measure HH. count_other is_measure HR.
    count_other is_measure HC. count_same is_measure HM. cbn. lia.
  - cbn. lia.
  - by rewrite !app_assoc, last_snoc.
Qed.

(** X7.  Gate counts.  For every qubit count [n >= 1] and every feature
    vector the builder returns a circuit with [n] Hadamard gates, one
    rotation per feature up to [n] of them, [n - 1] CNOT gates and one
    measurement, which is the last operation and covers all allocated
    qubits; the circuit has no other operation.  For [n <= 0] no circuit
    is built: the measurement of no qubit raises [ValueError]. *)
Theorem build_gate_counts (feature_vector : list float) (qubit_count : Z) :
  let n := Z.to_nat qubit_count in
  (0 < qubit_count →
   ∃ circuit,
     build feature_vector qubit_count = Return circuit
     ∧ count_ops is_H circuit = n
     ∧ count_ops is_rotation circuit = (length feature_vector `min` n)%nat
     ∧ count_ops is_CNOT circuit = (n - 1)%nat
     ∧ count_ops is_measure circuit = 1%nat
     ∧ length circuit = (n + length feature_vector `min` n + (n - 1) + 1)%nat
     ∧ last circuit = Some (measure (init_qubits qubit_count) "result"))
  ∧ (qubit_count <= 0 →
     build feature_vector qubit_count
     = Raise (ValueError "Measuring an empty set of qubits.")).
Proof.
  cbv zeta. split.
  - intros Hn.
    exists (circuit_layers (init_qubits qubit_count) feature_vector).
    split; [by apply build_returns |].
    apply circuit_layers_counts.
  - apply build_raises.
Qed.

(** X8.  Qubit indices stay in range: every operation of a circuit built
    for [n] qubits acts only on allocated qubits, that is on
    [GridQubit(r, 0)] with [0 <= r < n], whatever the feature vector. *)
Theorem build_qubits_in_range (feature_vector : list float) (qubit_count : Z)
    (circuit : Circuit) :
  build feature_vector qubit_count = Return circuit →
  Forall
    (fun op =>
       Forall (fun q => q ∈ init_qubits qubit_count
                        ∧ 0 <= row q < qubit_count ∧ col q = 0)
         (op_qubits op))
    circuit.
Proof.
  intros Hb. apply build_inv in Hb as [_ ->].
  assert (Hq : ∀ q, q ∈ init_qubits qubit_count →
                 q ∈ init_qubits qubit_count
                 ∧ 0 <= row q < qubit_count ∧ col q = 0).
  { intros q Hin. split; [done |]. by apply elem_of_init_qubits. }
  unfold circuit_layers. rewrite entangle_loop_chain. repeat rewrite Forall_app.
  repeat split.
  - apply Forall_fmap, Forall_forall. intros q Hin. cbn. auto.
  - apply Forall_zip_with_elem. intros data q _ Hin. cbn. auto.
  - apply Forall_zip_with_elem. intros q q' Hin Hin'. cbn.
    apply list_elem_of_lookup in Hin' as [i Hi]. rewrite lookup_drop in Hi.
    assert (q' ∈ init_qubits qubit_count)
      by (apply list_elem_of_lookup; eauto).
    auto.
  - constructor; [| constructor]. cbn. apply Forall_forall. auto.
Qed.

Lemma build_qubits_in_range_witness :
  Forall
    (fun op =>
       Forall (fun q => q ∈ init_qubits 4 ∧ 0 <= row q < 4 ∧ col q = 0)
         (op_qubits op))
    demo_circuit.
Proof.
  apply (build_qubits_in_range [0.5; 0.3; 0.8; 0.1]%float 4 demo_circuit).
  vm_compute. reflexivity.
Defined.

(** X9.  The entangling chain: for every pair of adjacent qubits
    [k], [k + 1] the circuit has, right after the rotations and in the
    order of [k], the gate [CNOT] with control [k] and target [k + 1]. *)
Theorem build_chain_position
    (feature_vector : list float) (qubit_count : Z) (k : nat) :
  (k + 1 < Z.to_nat qubit_count)%nat →
  ∃ circuit,
    build feature_vector qubit_count = Return circuit
    ∧ circuit
        !! (Z.to_nat qubit_count
            + length feature_vector `min` Z.to_nat qubit_count + k)%nat
      = Some (CNOT (mkGridQubit (Z.of_nat k) 0)
                (mkGridQubit (Z.of_nat k + 1) 0)).
Proof.
  intros Hk. pose proof (length_init_qubits qubit_count) as Hq.
  exists (circuit_layers (init_qubits qubit_count) feature_vector).
  split; [apply build_returns; lia |].
  unfold circuit_layers. rewrite entangle_loop_chain.
  rewrite lookup_app_r by (rewrite length_fmap, Hq; lia).
  rewrite lookup_app_r by (rewrite length_fmap, length_zip_with, Hq; lia).
  rewrite length_fmap, length_zip_with, Hq.
  match goal with |- _ !! ?i = _ => replace i with k by lia end.
  rewrite lookup_app_l by (rewrite length_zip_with, length_drop, Hq; lia).
  rewrite lookup_zip_with, lookup_drop, !init_qubits_lookup.
  rewrite !decide_True by lia. cbn.
  do 3 f_equal. lia.
Qed.

Lemma build_chain_position_witness :
  ∃ circuit,
    build [0.5; 0.3; 0.8; 0.1]%float 4 = Return circuit
    ∧ circuit !! 10%nat = Some (CNOT (mkGridQubit 2 0) (mkGridQubit 3 0)).
Proof.
  apply (build_chain_position [0.5; 0.3; 0.8; 0.1]%float 4 2). cbn. lia.
Defined.

(** X10.  The rotations of a built circuit are exactly the encoded
    features: a rotation is in the circuit if and only if it is
    [cirq.Y(qubit i) ** (feature_i / np.pi)] for a feature index [i] below
    the qubit count.  So a qubit without a feature gets no rotation, and a
    short or empty feature vector is not an error. *)
Theorem build_rotations
    (feature_vector : list float) (qubit_count : Z) (circuit : Circuit)
    (op : Operation) :
  is_rotation op = true →
  build feature_vector qubit_count = Return circuit →
  op ∈ circuit
  ↔ ∃ (i : nat) (data : float),
      (i < Z.to_nat qubit_count)%nat
      ∧ feature_vector !! i = Some data
      ∧ op = Y_pow (PrimFloat.div data np_pi) (mkGridQubit (Z.of_nat i) 0).
Proof.
  intros Hop Hb. apply build_inv in Hb as [_ ->].
  destruct (build_layer_kinds feature_vector (init_qubits qubit_count))
    as (HH & _ & HC & HM).
  assert (Hlayer : op ∈ circuit_layers (init_qubits qubit_count) feature_vector
                   ↔ op ∈ zip_with rotation feature_vector
                            (init_qubits qubit_count)).
  { unfold circuit_layers. rewrite !elem_of_app. split; [| tauto].
    intros [Hin | [Hin | [Hin | Hin]]]; [| done | |].
    - pose proof (proj1 (Forall_forall _ _) HH op Hin) as Hk.
      destruct op; discriminate.
    - pose proof (proj1 (Forall_forall _ _) HC op Hin) as Hk.
      destruct op; discriminate.
    - pose proof (proj1 (Forall_forall _ _) HM op Hin) as Hk.
      destruct op; discriminate. }
  rewrite Hlayer, list_elem_of_lookup. split.
  - intros [i Hi]. apply lookup_zip_with_Some in Hi as (data & q & -> & Hd & Hq).
    rewrite init_qubits_lookup in Hq.
    destruct (decide (i < Z.to_nat qubit_count)%nat); [| done].
    injection Hq as <-. by exists i, data.
  - intros (i & data & Hi & Hd & ->). exists i.
    apply lookup_zip_with_Some. exists data, (mkGridQubit (Z.of_nat i) 0).
    split; [done |]. split; [done |].
    by rewrite init_qubits_lookup, decide_True.
Qed.

Lemma build_rotations_witness :
  build [0.5; 0.3]%float 4
  = Return (circuit_layers (init_qubits 4) [0.5; 0.3]%float)
  ∧ Y_pow (PrimFloat.div 0.3 np_pi) (mkGridQubit 1 0)
      ∈ circuit_layers (init_qubits 4) [0.5; 0.3]%float.
Proof.
  split; [vm_compute; reflexivity |].
  apply (build_rotations [0.5; 0.3]%float 4
           (circuit_layers (init_qubits 4) [0.5; 0.3]%float)
           (Y_pow (PrimFloat.div 0.3 np_pi) (mkGridQubit 1 0)) eq_refl).
  - vm_compute. reflexivity.
  - exists 1%nat, 0.3%float. split; [cbn; lia |]. split; reflexivity.
Defined.

(** ** More on the pattern-recognition decoder *)

Lemma bit_sum_bounds (bits : list bool) :
  0 <= bit_sum bits <= Z.of_nat (length bits).
Proof.
  induction bits as [|b bits IH]; [cbn; lia |].
  change (bit_sum (b :: bits)) with (Z.b2z b + bit_sum bits).
  cbn [length]. destruct b; cbn [Z.b2z]; lia.
Qed.

(** X11.  When the decoder succeeds and when it fails.  It returns a
    result exactly when the raw results hold, under ['measurements'] and
    then ['result'], a table whose first shot has at least one bit; the
    other shots are not inspected for their shape.  Otherwise it raises
    [KeyError('measurements')], [KeyError('result')] or [IndexError], and
    nothing else. *)
Theorem post_process_results_succeeds_iff
    (raw_results : gmap string Measurements) :
  (is_return (_post_process_results raw_results) = true
   ↔ ∃ by_label bit0 shot0 rest,
       raw_results !! "measurements" = Some by_label
       ∧ by_label !! "result" = Some ((bit0 :: shot0) :: rest))
  ∧ (∀ r, _post_process_results raw_results = Return r →
          ∃ by_label shot0 rest,
            raw_results !! "measurements" = Some by_label
            ∧ by_label !! "result" = Some ((pattern_identified r :: shot0) :: rest)
            ∧ confidence_score r = np_mean ((pattern_identified r :: shot0) :: rest))
  ∧ ∀ e, _post_process_results raw_results = Raise e →
         e = KeyError "measurements" ∨ e = KeyError "result"
         ∨ e = IndexError "index 0 is out of bounds for axis 0 with size 0".
Proof.
  unfold _post_process_results.
  destruct (raw_results !! "measurements") as [by_label|] eqn:Hm.
  2: { split; [| split].
       - split; [done |]. by intros (? & ? & ? & ? & ? & ?).
       - done.
       - intros e [= <-]. auto. }
  destruct (by_label !! "result") as [table|] eqn:Hl.
  2: { split; [| split].
       - split; [done |]. intros (bl & ? & ? & ? & [= <-] & Hbl).
         by rewrite Hl in Hbl.
       - done.
       - intros e [= <-]. auto. }
  destruct table as [|[|bit0 shot0] rest].
  - split; [| split].
    + split; [done |]. intros (bl & ? & ? & ? & [= <-] & Hbl).
      by rewrite Hl in Hbl.
    + done.
    + intros e [= <-]. auto.
  - split; [| split].
    + split; [done |]. intros (bl & ? & ? & ? & [= <-] & Hbl).
      by rewrite Hl in Hbl.
    + done.
    + intros e [= <-]. auto.
  - split; [| split].
    + split; [| done]. intros _. by exists by_label, bit0, shot0, rest.
    + intros r [= <-]. by exists by_label, shot0, rest.
    + done.
Qed.

(** X12.  The confidence score of a successful decoding is the float64
    quotient of two integers: the number of 1 bits among all measured bits,
    and the number of measured bits, which is positive; the first is
    between 0 and the second.  In particular the division is never
    [0/0]. *)
Theorem confidence_score_is_a_fraction
    (raw_results : gmap string Measurements) (r : ProcessedResults) :
  _post_process_results raw_results = Return r →
  ∃ ones size : Z,
    confidence_score r = PrimFloat.div (float_of_Z ones) (float_of_Z size)
    ∧ 0 <= ones <= size ∧ 0 < size
    ∧ ∃ by_label table,
        raw_results !! "measurements" = Some by_label
        ∧ by_label !! "result" = Some table
        ∧ ones = bit_sum (concat table)
        ∧ size = Z.of_nat (length (concat table)).
Proof.
  unfold _post_process_results. intros Hr.
  destruct (raw_results !! "measurements") as [by_label|]; [| done].
  destruct (by_label !! "result") as [table|] eqn:Hl; [| done].
  destruct table as [|[|bit0 shot0] rest]; try done.
  injection Hr as <-.
  exists (bit_sum (concat ((bit0 :: shot0) :: rest))),
    (Z.of_nat (length (concat ((bit0 :: shot0) :: rest)))).
  split; [reflexivity |].
  split; [apply bit_sum_bounds |].
  split; [cbn [concat app length]; lia |].
  by exists by_label, ((bit0 :: shot0) :: rest).
Qed.

Lemma confidence_score_is_a_fraction_witness :
  ∃ ones size : Z,
    confidence_score {| pattern_identified := true;
                        confidence_score := 0.1575%float |}
    = PrimFloat.div (float_of_Z ones) (float_of_Z size)
    ∧ 0 <= ones <= size ∧ 0 < size
    ∧ ∃ by_label table,
        raw_results_of table_63_of_100 !! "measurements" = Some by_label
        ∧ by_label !! "result" = Some table
        ∧ ones = bit_sum (concat table)
        ∧ size = Z.of_nat (length (concat table)).
Proof.
  apply (confidence_score_is_a_fraction (raw_results_of table_63_of_100)).
  vm_compute. reflexivity.
Defined.

(** ** More on the optimisation decoder *)

(** [max] returns the first of the maximal elements: what comes before it
    has a strictly smaller key, what comes after it no larger one. *)
Lemma max_from_first {A} (f : A -> Z) (rest : list A) :
  ∀ best : A,
    ∃ before after,
      best :: rest = before ++ max_from f best rest :: after
      ∧ Forall (fun y => f y < f (max_from f best rest)) before
      ∧ Forall (fun y => f y <= f (max_from f best rest)) after.
Proof.
  induction rest as [|y rest IH]; intros best; cbn [max_from].
  - exists [], []. by repeat split.
  - destruct (IH (if f best <? f y then y else best))
      as (before & after & Heq & Hbefore & Hafter).
    set (x := max_from f (if f best <? f y then y else best) rest) in *.
    destruct (Z.ltb_spec (f best) (f y)) as [Hlt | Hge].
    + exists (best :: before), after. rewrite <- app_comm_cons, <- Heq.
      repeat split; [| done]. constructor; [| done].
      destruct before as [|b before]; cbn in Heq.
      * injection Heq as Hy _. by rewrite <- Hy.
      * injection Heq as <- _. apply Forall_cons in Hbefore as [Hb _]. lia.
    + destruct before as [|b before]; cbn in Heq.
      * injection Heq as Hbest Hrest. exists [], (y :: rest).
        rewrite <- Hbest. repeat split; [constructor |].
        constructor; [lia |]. rewrite Hrest, Hbest. done.
      * injection Heq as <- Hrest. exists (best :: y :: before), after.
        rewrite Hrest. repeat split; [| done].
        apply Forall_cons in Hbefore as [Hb Hbefore].
        repeat constructor; [done | lia | done].
Qed.

(** X13.  Ties are broken by position: of the outcomes with the highest
    count, [optimize_movement] sends the one that comes first in the
    histogram.  Every outcome before the selected one has a strictly
    smaller count, every outcome after it a count that is not larger. *)
Theorem optimize_movement_first_maximum
    (K : Type) `{EqDecision K}
    (simulator_histogram : Circuit -> Z -> outcome (list (K * Z)))
    (histogram : list (K * Z)) (robot : list K) :
  simulator_histogram Simulation.create_quantum_circuit 100 = Return histogram →
  histogram ≠ [] →
  NoDup (Simulation.keys histogram) →
  ∃ before selected n after,
    histogram = before ++ (selected, n) :: after
    ∧ Simulation.optimize_movement simulator_histogram robot
      = (Return tt, robot ++ [selected])
    ∧ Forall (fun entry => entry.2 < n) before
    ∧ Forall (fun entry => entry.2 <= n) after.
Proof.
  intros Hrun Hne Hnd.
  destruct histogram as [|[k0 v0] d]; [done |].
  set (h := (k0, v0) :: d) in *.
  destruct (max_from_first (Simulation.count h) (Simulation.keys d) k0)
    as (kbefore & kafter & Heq & Hbefore & Hafter).
  set (selected := max_from (Simulation.count h) k0 (Simulation.keys d)) in *.
  change (k0 :: Simulation.keys d) with (fst <$> h) in Heq.
  apply fmap_app_inv in Heq as (before & rest & -> & Hrest & Hh).
  symmetry in Hrest.
  apply fmap_cons_inv in Hrest as ([k n] & after & Hk & -> & ->).
  cbn in Hk. subst k.
  assert (Hcount : ∀ k' n', (k', n') ∈ h → Simulation.count h k' = n').
  { intros k' n' Hin. unfold Simulation.count.
    by rewrite (get_entry h k' n' Hnd Hin). }
  assert (Hn : Simulation.count h selected = n).
  { apply Hcount. rewrite Hh. apply elem_of_app. right. left. }
  exists before, selected, n, after. split; [done |]. split.
  - unfold Simulation.optimize_movement, Simulation.simulate_quantum_circuit.
    cbv zeta. rewrite Hrun. by rewrite bool_decide_eq_true_2.
  - rewrite Hn in Hbefore, Hafter. split.
    + apply Forall_forall. intros [k' n'] Hin. cbn.
      rewrite <- (Hcount k' n') by (rewrite Hh; apply elem_of_app; by left).
      apply (proj1 (Forall_forall _ _) Hbefore).
      apply list_elem_of_fmap. by exists (k', n').
    + apply Forall_forall. intros [k' n'] Hin. cbn.
      rewrite <- (Hcount k' n')
        by (rewrite Hh; apply elem_of_app; right; by right).
      apply (proj1 (Forall_forall _ _) Hafter).
      apply list_elem_of_fmap. by exists (k', n').
Qed.

Lemma optimize_movement_first_maximum_witness :
  Simulation.optimize_movement (fun _ _ => Return histogram_tie) []
  = (Return tt, ["B"])
  ∧ ∃ before selected n after,
      histogram_tie = before ++ (selected, n) :: after
      ∧ Simulation.optimize_movement (fun _ _ => Return histogram_tie) []
        = (Return tt, [] ++ [selected])
      ∧ Forall (fun entry => entry.2 < n) before
      ∧ Forall (fun entry => entry.2 <= n) after.
Proof.
  split; [reflexivity |].
  apply (optimize_movement_first_maximum string
           (fun _ _ => Return histogram_tie) histogram_tie []).
  - reflexivity.
  - discriminate.
  - apply (bool_decide_unpack _). reflexivity.
Defined.

(** X14.  What [optimize_movement] does to the robot and to its caller, for
    every simulator.  An exception of the simulator is passed on unchanged
    and the robot receives nothing; an empty histogram ends the call
    quietly; otherwise the robot receives exactly one decision, an outcome
    of the histogram, after those it had received before.  The call raises
    only when the simulator does. *)
Theorem optimize_movement_effects
    (K : Type) `{EqDecision K}
    (simulator_histogram : Circuit -> Z -> outcome (list (K * Z)))
    (robot : list K) :
  match simulator_histogram Simulation.create_quantum_circuit 100 with
  | Raise e =>
      Simulation.optimize_movement simulator_histogram robot = (Raise e, robot)
  | Return [] =>
      Simulation.optimize_movement simulator_histogram robot = (Return tt, robot)
  | Return histogram =>
      ∃ selected,
        selected ∈ Simulation.keys histogram
        ∧ Simulation.optimize_movement simulator_histogram robot
          = (Return tt, robot ++ [selected])
  end.
Proof.
  unfold Simulation.optimize_movement, Simulation.simulate_quantum_circuit.
  cbv zeta.
  destruct (simulator_histogram Simulation.create_quantum_circuit 100)
    as [[|[k0 v0] d]|e]; [done | | done].
  exists (max_from (Simulation.count ((k0, v0) :: d)) k0 (Simulation.keys d)).
  split; [| done].
  apply (max_from_spec (Simulation.count ((k0, v0) :: d)) (Simulation.keys d) k0).
Qed.

(** ** Decoder failures inside the invocation *)

(** X15.  A failure of the decoder is not turned into the
    pattern-recognition error and does not touch the status: when the
    circuit was built and rendered and the engine answers without the
    ['result'] label, or with a table without shots, the invocation raises
    the decoder's [KeyError] or [IndexError] and the object is left
    [READY]. *)
Theorem process_vision_data_decoder_failure
    (circuit_str : Circuit -> outcome string)
    (run : Circuit -> Z -> outcome Measurements) (vision_data : list float)
    (self : QPUHardwareInterface) (circuit : Circuit) (text : string)
    (result : Measurements) :
  build vision_data (num_qubits (config self)) = Return circuit →
  circuit_str circuit = Return text →
  run circuit 100 = Return result →
  result !! "result" = None ∨ result !! "result" = Some [] →
  process_vision_data circuit_str run vision_data self
  = (Raise (match result !! "result" with
            | None => KeyError "result"
            | Some _ => IndexError "index 0 is out of bounds for axis 0 with size 0"
            end),
     with_status READY self)
  ∧ status (process_vision_data circuit_str run vision_data self).2 = READY.
Proof.
  intros Hb Hstr Hrun Hres. rewrite process_vision_data_cases, Hb, Hstr, Hrun.
  unfold _post_process_results. rewrite lookup_singleton_eq.
  by destruct Hres as [-> | ->].
Qed.

Lemma process_vision_data_decoder_failure_witness :
  process_vision_data plain_str (fun _ _ => Return ∅) [0.5; 0.3]%float
    (with_status ERROR (init true))
  = (Raise (KeyError "result"), init true).
Proof.
  refine (eq_trans
            (proj1 (process_vision_data_decoder_failure plain_str
                      (fun _ _ => Return ∅) [0.5; 0.3]%float
                      (with_status ERROR (init true))
                      (circuit_layers (init_qubits 4) [0.5; 0.3]%float)
                      "circuit" ∅ _ _ _ _)) _).
  - vm_compute. reflexivity.
  - reflexivity.
  - reflexivity.
  - left. reflexivity.
  - reflexivity.
Defined.
